(** * videojs-languages: the path computations of [src/api.js]

    A shallow embedding of the converter's entry point [convert] and of
    its private helpers [nonEmptyStr], [normalizePatterns],
    [normalizeDir], [destination], [findSources] and [processSources],
    followed by the properties the specification states about them.

    The three imported modules are treated as follows.
    - [path] (Node's builtin) is an interface, [PathModule]; general
      statements hold for any implementation of it, and the concrete
      examples are evaluated on [posix], a model of [path.posix].
    - [globby] and [mkdirp] act on the file system; they are the two
      operations of the interface [Platform], over an abstract type of
      file-system states that is threaded through the code.  Either of
      them may throw. *)

From Stdlib Require Import Ascii String List ZArith NArith Bool Lia.
Import ListNotations.

Set Implicit Arguments.

(** ** JavaScript data *)

(** A JavaScript string is a sequence of UTF-16 code units. *)
Definition code_unit := N.
Definition jsstring := list code_unit.

(** The string literal [s] of the source, for literals made of
    characters below U+0100. *)
Definition js (s : string) : jsstring :=
  map N_of_ascii (list_ascii_of_string s).

Definition code_unit_eqb (a b : code_unit) : bool := N.eqb a b.

(** [a === b] on two strings. *)
Fixpoint jsstring_eqb (a b : jsstring) : bool :=
  match a, b with
  | [], [] => true
  | x :: a', y :: b' => code_unit_eqb x y && jsstring_eqb a' b'
  | _, _ => false
  end.

(** The values the entry point can be handed.  Array holes are read as
    [VUndefined]: [some] and [filter] skip a hole, and [nonEmptyStr]
    rejects [undefined], so the two agree on every function below.
    [VNumber] carries integers only and [VObject] only a label, since
    nothing in this program looks inside either. *)
#[warnings="-register-all"]
Inductive value : Type :=
| VUndefined
| VNull
| VBoolean (b : bool)
| VNumber (n : Z)
| VString (s : jsstring)
| VArray (elems : list value)
| VObject (label : string).

(** [typeof v === 'string'] *)
Definition is_string (v : value) : bool :=
  match v with VString _ => true | _ => false end.

(** [Array.isArray(v)] *)
Definition isArray (v : value) : bool :=
  match v with VArray _ => true | _ => false end.

(** ToBoolean, as used by [||]. *)
Definition to_boolean (v : value) : bool :=
  match v with
  | VUndefined | VNull => false
  | VBoolean b => b
  | VNumber n => negb (Z.eqb n 0)
  | VString s => match s with [] => false | _ :: _ => true end
  | VArray _ | VObject _ => true
  end.

(** The outcome of evaluating an expression: a value, or a thrown one. *)
Inductive completion (A : Type) : Type :=
| Normal (a : A)
| Throw (e : value).
Arguments Normal {A} a.
Arguments Throw {A} e.

Definition TypeError : value := VObject "TypeError".

(** ** The regular expression [/\S/]

    [\s] is the union of WhiteSpace and LineTerminator of ECMAScript
    (2016 and later): TAB, LF, VT, FF, CR, SP, NBSP, U+1680,
    U+2000..U+200A, LS, PS, U+202F, U+205F, U+3000 and the BOM. *)
Definition is_whitespace (c : code_unit) : bool :=
  ((9 <=? c) && (c <=? 13) || (c =? 32) || (c =? 160) || (c =? 5760)
   || (8192 <=? c) && (c <=? 8202) || (c =? 8232) || (c =? 8233)
   || (c =? 8239) || (c =? 8287) || (c =? 12288) || (c =? 65279))%N.

(** [/\S/.test(s)]: some code unit of [s] is not white space. *)
Definition test_S (s : jsstring) : bool :=
  existsb (fun c => negb (is_whitespace c)) s.

(** ** [src/api.js], lines 12-37 *)

Definition nonEmptyStr (v : value) : bool :=
  match v with
  | VString s => test_S s
  | _ => false
  end.

(** The elements of an array; only ever asked of a value that passed
    [Array.isArray]. *)
Definition elements (v : value) : list value :=
  match v with VArray elems => elems | _ => [] end.

(** [a.some(f)] and [a.filter(f)] are [existsb f] and [filter f] on the
    elements; [||] is lazy, as [orb] is on its second argument. *)
Definition normalizePatterns (patterns : value) : list value :=
  if nonEmptyStr patterns then [patterns]
  else if negb (isArray patterns)
          || negb (existsb nonEmptyStr (elements patterns))
       then [VString (js "lang/*.json")]
       else filter nonEmptyStr (elements patterns).

(** ** Strings and the [path] module *)

(** [s.substr(start, len)] *)
Definition substr (s : jsstring) (start len : Z) : jsstring :=
  let size := Z.of_nat (length s) in
  let from := if (start <? 0)%Z then Z.max (size + start) 0 else start in
  let n := Z.min (Z.max len 0) (size - from) in
  if (n <=? 0)%Z then [] else firstn (Z.to_nat n) (skipn (Z.to_nat from) s).

(** The four functions of Node's [path] the program calls, on strings.
    Which implementation is loaded depends on the platform. *)
Class PathModule : Type := {
  dirname : jsstring -> jsstring;
  basename : jsstring -> jsstring;
  extname : jsstring -> jsstring;
  join : jsstring -> jsstring -> jsstring
}.

(** [path.join(a, b)] where [a] is any value: Node validates its
    arguments and throws a [TypeError] on one that is not a string. *)
Definition path_join `{PathModule} (a : value) (b : jsstring)
  : completion jsstring :=
  match a with
  | VString d => Normal (join d b)
  | _ => Throw TypeError
  end.

(** ** The file system *)

(** Computations that read or change the file system and may throw. *)
Definition M (FS A : Type) : Type := FS -> completion A * FS.

Definition ret {FS A} (a : A) : M FS A := fun fs => (Normal a, fs).

Definition bind {FS A B} (c : M FS A) (k : A -> M FS B) : M FS B :=
  fun fs =>
    match c fs with
    | (Normal a, fs') => k a fs'
    | (Throw e, fs') => (Throw e, fs')
    end.

(** [try { body } catch (x) { handler }] *)
Definition try_catch {FS A} (body : M FS A) (handler : value -> M FS A)
  : M FS A :=
  fun fs =>
    match body fs with
    | (Normal a, fs') => (Normal a, fs')
    | (Throw e, fs') => handler e fs'
    end.

(** A pure expression that may throw, inside a computation. *)
Definition lift {FS A} (c : completion A) : M FS A := fun fs => (c, fs).

(** A computation that reads the file system and leaves it as it is. *)
Definition read {FS A} (f : FS -> completion A) : M FS A :=
  fun fs => (f fs, fs).

Declare Scope js_scope.
Delimit Scope js_scope with js.
Notation "x <- c ;; k" := (bind c (fun x => k))
  (at level 61, c at next level, right associativity) : js_scope.
Notation "c ;;; k" := (bind c (fun _ => k))
  (at level 61, right associativity) : js_scope.

(** [globby.sync(patterns)] reads the file system and answers with the
    matching paths, or throws; [mkdirp.sync(dir)] changes the file
    system, or throws. *)
Class Platform (FS : Type) : Type := {
  globby_sync : list value -> FS -> completion (list jsstring);
  mkdirp_sync : value -> M FS unit
}.

(** [a.map(f)] for an [f] that may throw: the first throw ends the map. *)
Fixpoint array_map {A B} (f : A -> completion B) (l : list A)
  : completion (list B) :=
  match l with
  | [] => Normal []
  | x :: l' =>
      match f x with
      | Throw e => Throw e
      | Normal y =>
          match array_map f l' with
          | Throw e => Throw e
          | Normal ys => Normal (y :: ys)
          end
      end
  end.

(** The object [{srces, dests}] that [convert] returns. *)
Record conversion : Type := {
  srces : list jsstring;
  dests : list jsstring
}.

(** ** [src/api.js], lines 46-126 *)

Section Api.
Context {path : PathModule} {FS : Type} {platform : Platform FS}.
Open Scope js_scope.

(** The [catch] block is empty, after which control reaches
    [return null]. *)
Definition normalizeDir (dir : value) : M FS value :=
  if nonEmptyStr dir then
    try_catch (mkdirp_sync dir ;;; ret dir) (fun x => ret VNull)
  else ret VNull.

Definition destination (src : jsstring) (dir : value)
  : completion jsstring :=
  let d := if to_boolean dir then dir else VString (dirname src) in
  let bn := basename src in
  path_join d (substr bn 0 (Z.of_nat (length bn) - 2)).

(** Nothing catches what [globby.sync] throws. *)
Definition findSources (patterns : list value) : M FS (list jsstring) :=
  found <- read (globby_sync patterns) ;;
  ret (filter (fun f => jsstring_eqb (extname f) (js ".json")) found).

(** [destination] is called with one argument: its [dir] is
    [undefined], whatever [processSources] was given. *)
Definition processSources (srces : list jsstring) (dir : value)
  : completion (list jsstring) :=
  array_map (fun src => let dest := destination src VUndefined in dest)
            srces.

(** [srces] is bound first, and a throw of [findSources] ends the
    call there; the arguments of [processSources] are evaluated before
    it is called, so [normalizeDir(dir)] runs next. *)
Definition convert (patterns dir : value) : M FS conversion :=
  srces <- findSources (normalizePatterns patterns) ;;
  d <- normalizeDir dir ;;
  dests <- lift (processSources srces d) ;;
  ret {| srces := srces; dests := dests |}.

End Api.

(** ** A model of [path.posix]

    [dirname], [basename] and [extname] follow the loops of Node's
    [lib/path.js], which scan the path from its end; [normalize] is
    given by its effect on the segments of the path. *)

Module Posix.

Definition SLASH : code_unit := 47%N.
Definition DOT : code_unit := 46%N.

(** [s.charCodeAt(i) === c]; out of range the code is [NaN]. *)
Definition charCodeAt_is (s : jsstring) (i : nat) (c : code_unit) : bool :=
  match nth_error s i with
  | Some x => code_unit_eqb x c
  | None => false
  end.

(** [s.slice(from, to)] for [0 <= from] and [0 <= to]. *)
Definition slice (s : jsstring) (from to : nat) : jsstring :=
  firstn (to - from) (skipn from s).

Inductive step (S : Type) : Type :=
| Continue (s : S)
| Break (s : S).
Arguments Continue {S} s.
Arguments Break {S} s.

(** [for (let i = n - 1; i >= lo; --i) body], from state [st]. *)
Fixpoint for_down {S} (lo : nat) (body : nat -> S -> step S)
         (n : nat) (st : S) : S :=
  match n with
  | O => st
  | S i =>
      if i <? lo then st
      else match body i st with
           | Continue st' => for_down lo body i st'
           | Break st' => st'
           end
  end.

(** [end] is [None] for [-1]. *)
Record dir_state : Type :=
  { d_end : option nat; d_matchedSlash : bool }.

Definition dirname (path : jsstring) : jsstring :=
  if length path =? 0 then js "."
  else
    let hasRoot := charCodeAt_is path 0 SLASH in
    let st :=
      for_down 1
        (fun i st =>
           if charCodeAt_is path i SLASH then
             if negb (d_matchedSlash st)
             then Break {| d_end := Some i; d_matchedSlash := false |}
             else Continue st
           else Continue {| d_end := d_end st; d_matchedSlash := false |})
        (length path) {| d_end := None; d_matchedSlash := true |} in
    match d_end st with
    | None => if hasRoot then js "/" else js "."
    | Some e =>
        if hasRoot && (e =? 1) then js "//" else slice path 0 e
    end.

Record base_state : Type :=
  { b_start : nat; b_end : option nat; b_matchedSlash : bool }.

Definition basename (path : jsstring) : jsstring :=
  let st :=
    for_down 0
      (fun i st =>
         if charCodeAt_is path i SLASH then
           if negb (b_matchedSlash st)
           then Break {| b_start := i + 1; b_end := b_end st;
                         b_matchedSlash := false |}
           else Continue st
         else
           match b_end st with
           | None => Continue {| b_start := b_start st; b_end := Some (i + 1);
                                 b_matchedSlash := false |}
           | Some _ => Continue st
           end)
      (length path)
      {| b_start := 0; b_end := None; b_matchedSlash := true |} in
  match b_end st with
  | None => []
  | Some e => slice path (b_start st) e
  end.

Record ext_state : Type :=
  { e_startDot : option nat; e_startPart : nat; e_end : option nat;
    e_matchedSlash : bool; e_preDotState : Z }.

Definition extname (path : jsstring) : jsstring :=
  let st :=
    for_down 0
      (fun i st =>
         if charCodeAt_is path i SLASH then
           if negb (e_matchedSlash st)
           then Break {| e_startDot := e_startDot st; e_startPart := i + 1;
                         e_end := e_end st; e_matchedSlash := false;
                         e_preDotState := e_preDotState st |}
           else Continue st
         else
           let st1 :=
             match e_end st with
             | None => {| e_startDot := e_startDot st;
                          e_startPart := e_startPart st;
                          e_end := Some (i + 1); e_matchedSlash := false;
                          e_preDotState := e_preDotState st |}
             | Some _ => st
             end in
           if charCodeAt_is path i DOT then
             match e_startDot st1 with
             | None =>
                 Continue {| e_startDot := Some i;
                             e_startPart := e_startPart st1;
                             e_end := e_end st1;
                             e_matchedSlash := e_matchedSlash st1;
                             e_preDotState := e_preDotState st1 |}
             | Some _ =>
                 Continue {| e_startDot := e_startDot st1;
                             e_startPart := e_startPart st1;
                             e_end := e_end st1;
                             e_matchedSlash := e_matchedSlash st1;
                             e_preDotState := 1 |}
             end
           else
             match e_startDot st1 with
             | Some _ =>
                 Continue {| e_startDot := e_startDot st1;
                             e_startPart := e_startPart st1;
                             e_end := e_end st1;
                             e_matchedSlash := e_matchedSlash st1;
                             e_preDotState := -1 |}
             | None => Continue st1
             end)
      (length path)
      {| e_startDot := None; e_startPart := 0; e_end := None;
         e_matchedSlash := true; e_preDotState := 0 |} in
  match e_startDot st, e_end st with
  | Some sd, Some e =>
      if (e_preDotState st =? 0)%Z
         || ((e_preDotState st =? 1)%Z && (sd =? e - 1)
             && (sd =? e_startPart st + 1))
      then []
      else slice path sd e
  | _, _ => []
  end.

(** The segments of a path: the runs between separators. *)
Fixpoint split (path : jsstring) : list jsstring :=
  match path with
  | [] => [[]]
  | c :: rest =>
      if code_unit_eqb c SLASH then [] :: split rest
      else match split rest with
           | seg :: segs => (c :: seg) :: segs
           | [] => [[c]]
           end
  end.

(** One segment against the segments kept so far, last one first:
    empty and [.] segments vanish, [..] removes the segment before it
    when there is one that is not itself [..], and is kept only in a
    relative path. *)
Definition push_segment (allowAboveRoot : bool) (kept : list jsstring)
           (seg : jsstring) : list jsstring :=
  if jsstring_eqb seg [] || jsstring_eqb seg (js ".") then kept
  else if jsstring_eqb seg (js "..") then
    match kept with
    | top :: below =>
        if jsstring_eqb top (js "..") then seg :: kept else below
    | [] => if allowAboveRoot then [seg] else []
    end
  else seg :: kept.

Fixpoint join_segments (segs : list jsstring) : jsstring :=
  match segs with
  | [] => []
  | [seg] => seg
  | seg :: rest => seg ++ SLASH :: join_segments rest
  end.

Definition normalizeString (path : jsstring) (allowAboveRoot : bool)
  : jsstring :=
  join_segments (rev (fold_left (push_segment allowAboveRoot) (split path) [])).

Definition normalize (path : jsstring) : jsstring :=
  if length path =? 0 then js "."
  else
    let isAbsolute := charCodeAt_is path 0 SLASH in
    let trailingSeparator := charCodeAt_is path (length path - 1) SLASH in
    let p := normalizeString path (negb isAbsolute) in
    if length p =? 0 then
      if isAbsolute then js "/"
      else if trailingSeparator then js "./" else js "."
    else
      let p' := if trailingSeparator then p ++ [SLASH] else p in
      if isAbsolute then SLASH :: p' else p'.

(** [path.join(a, b)]: the non-empty arguments, joined by a separator
    and normalized. *)
Definition join (a b : jsstring) : jsstring :=
  let joined :=
    match a, b with
    | [], [] => None
    | _ :: _, [] => Some a
    | [], _ :: _ => Some b
    | _ :: _, _ :: _ => Some (a ++ SLASH :: b)
    end in
  match joined with
  | None => js "."
  | Some j => normalize j
  end.

End Posix.

#[export] Instance posix : PathModule := {
  dirname := Posix.dirname;
  basename := Posix.basename;
  extname := Posix.extname;
  join := Posix.join
}.

(** ** A small file system

    A platform to run the program on: the file system lists its files
    and directories and the paths under which nothing can be created.
    A pattern matches a file literally, except that [*] stands for any
    run of characters other than the separator. *)

Module Demo.

Record fs : Type := {
  files : list jsstring;
  dirs : list jsstring;
  readonly : list jsstring
}.

Fixpoint glob_match (pat : jsstring) : jsstring -> bool :=
  match pat with
  | [] => fun f => match f with [] => true | _ :: _ => false end
  | c :: pat' =>
      if code_unit_eqb c 42%N then
        fix star (f : jsstring) : bool :=
          glob_match pat' f
          || match f with
             | [] => false
             | x :: f' => negb (code_unit_eqb x Posix.SLASH) && star f'
             end
      else
        fun f =>
          match f with
          | [] => false
          | x :: f' => code_unit_eqb x c && glob_match pat' f'
          end
  end.

Definition matches (patterns : list value) (f : jsstring) : bool :=
  existsb (fun p => match p with
                    | VString pat => glob_match pat f
                    | _ => false
                    end) patterns.

(** A pattern that holds the character U+0000, which no path may. *)
Definition has_nul (p : value) : bool :=
  match p with
  | VString pat => existsb (code_unit_eqb 0%N) pat
  | _ => false
  end.

(** The resolver throws on a pattern with U+0000 in it, and on no
    other. *)
Definition globby_sync (patterns : list value) (s : fs)
  : completion (list jsstring) :=
  if existsb has_nul patterns then Throw (VObject "ERR_INVALID_ARG_VALUE")
  else Normal (filter (matches patterns) (files s)).

Definition mkdirp_sync (dir : value) : M fs unit :=
  fun s =>
    match dir with
    | VString d =>
        if existsb (jsstring_eqb d) (readonly s)
        then (Throw (VObject "EACCES"), s)
        else if existsb (jsstring_eqb d) (dirs s) then (Normal tt, s)
        else (Normal tt, {| files := files s; dirs := d :: dirs s;
                            readonly := readonly s |})
    | _ => (Throw TypeError, s)
    end.

(** [lang/] holds two translations and a note; nothing can be created
    at [/proc/out]. *)
Definition lang_fs : fs := {|
  files := [js "lang/en.json"; js "lang/fr.json"; js "lang/notes.txt"];
  dirs := [js "lang"];
  readonly := [js "/proc/out"]
|}.

(** The same file system with [out/] created. *)
Definition lang_fs_out : fs := {|
  files := files lang_fs;
  dirs := js "out" :: dirs lang_fs;
  readonly := readonly lang_fs
|}.

Definition empty_fs : fs := {| files := []; dirs := []; readonly := [] |}.

(** A pattern with U+0000 in it. *)
Definition nul_pattern : jsstring := js "lang/" ++ [0%N] ++ js "*.json".

(** A resolver that answers only a list of non-empty strings that is
    not empty, and a directory maker that accepts only a non-empty
    string: on anything else the first throws a [TypeError] and the
    second a [RangeError]. *)
Definition globby_strict (patterns : list value) (s : fs)
  : completion (list jsstring) :=
  match patterns with
  | _ :: _ =>
      if forallb nonEmptyStr patterns then globby_sync patterns s
      else Throw TypeError
  | [] => Throw TypeError
  end.

Definition mkdirp_strict (dir : value) : M fs unit :=
  fun s =>
    if nonEmptyStr dir then mkdirp_sync dir s
    else (Throw (VObject "RangeError"), s).

End Demo.

#[export] Instance demo : Platform Demo.fs := {
  globby_sync := Demo.globby_sync;
  mkdirp_sync := Demo.mkdirp_sync
}.

Definition demo_strict : Platform Demo.fs := {|
  globby_sync := Demo.globby_strict;
  mkdirp_sync := Demo.mkdirp_strict
|}.

(** ** The vocabulary of the specification *)

(** A string the specification calls non-empty: one with at least one
    character that is not white space (section 4.1). *)
Definition NonEmptyString (v : value) : Prop :=
  exists s, v = VString s /\ exists c, In c s /\ is_whitespace c = false.

(** A string of white space only; the empty string is one. *)
Definition WhitespaceOnly (s : jsstring) : Prop :=
  forall c, In c s -> is_whitespace c = true.

(** [Kept P l r]: [r] is [l] filtered to its elements that satisfy [P],
    in their original order. *)
Inductive Kept {A : Type} (P : A -> Prop) : list A -> list A -> Prop :=
| Kept_nil : Kept P [] []
| Kept_take x l r : P x -> Kept P l r -> Kept P (x :: l) (x :: r)
| Kept_drop x l r : ~ P x -> Kept P l r -> Kept P (x :: l) r.

(** A Directory Reference (section 3): the absent value, or the path of
    a directory, which is a string that is not empty. *)
Definition DirectoryReference (d : value) : Prop :=
  d = VUndefined \/ d = VNull \/ exists s, d = VString s /\ s <> [].

(** The directory a destination is placed in, in the specification's
    words: the Directory Reference if present, else the containing
    directory of the source. *)
Definition target_directory `{PathModule} (src : jsstring) (d : value)
  : jsstring :=
  match d with
  | VString s => s
  | _ => dirname src
  end.

(** A name with its final two characters removed. *)
Definition without_last_two (name : jsstring) : jsstring :=
  firstn (length name - 2) name.

(** The paths of a resolver's answer whose extension is [".json"]. *)
Definition json_only `{PathModule} (found : list jsstring) : list jsstring :=
  filter (fun f => jsstring_eqb (extname f) (js ".json")) found.

(** The destination of a source that is placed next to it. *)
Definition alongside `{PathModule} (src : jsstring) : jsstring :=
  join (dirname src) (without_last_two (basename src)).

(** * Properties *)

(** ** The model of [path.posix] on Node's documented examples *)

Example posix_dirname_examples :
  Posix.dirname (js "/foo/bar/baz/asdf/quux") = js "/foo/bar/baz/asdf"
  /\ Posix.dirname (js "lang/en.json") = js "lang"
  /\ Posix.dirname (js "en.json") = js "."
  /\ Posix.dirname (js "/en.json") = js "/"
  /\ Posix.dirname (js "lang/sub/") = js "lang".
Proof. repeat split. Qed.

Example posix_basename_examples :
  Posix.basename (js "/foo/bar/baz/asdf/quux.html") = js "quux.html"
  /\ Posix.basename (js "lang/en.json") = js "en.json"
  /\ Posix.basename (js "lang/sub/") = js "sub"
  /\ Posix.basename (js "/") = js "".
Proof. repeat split. Qed.

Example posix_extname_examples :
  Posix.extname (js "index.html") = js ".html"
  /\ Posix.extname (js "index.coffee.md") = js ".md"
  /\ Posix.extname (js "index.") = js "."
  /\ Posix.extname (js "index") = js ""
  /\ Posix.extname (js ".index") = js ""
  /\ Posix.extname (js ".index.md") = js ".md"
  /\ Posix.extname (js "lang.d/en") = js "".
Proof. repeat split. Qed.

Example posix_join_examples :
  Posix.join (js "/foo") (js "bar") = js "/foo/bar"
  /\ Posix.join (js "a/b") (js "../c") = js "a/c"
  /\ Posix.join (js "a") (js "../../c") = js "../c"
  /\ Posix.join (js "/a") (js "../../c") = js "/c"
  /\ Posix.join (js "a//b/./") (js "c/") = js "a/b/c/"
  /\ Posix.join (js ".") (js "en.js") = js "en.js"
  /\ Posix.join (js "") (js "") = js ".".
Proof. repeat split. Qed.

(** ** Strings and filters *)

Lemma jsstring_eqb_eq (a b : jsstring) : jsstring_eqb a b = true <-> a = b.
Proof.
  revert b; induction a as [|x a IH]; intros [|y b]; simpl;
    try (split; [discriminate | discriminate]); [tauto|].
  unfold code_unit_eqb. rewrite andb_true_iff, N.eqb_eq, IH.
  split; [intros [-> ->]; reflexivity | intros E; inversion E; auto].
Qed.

Lemma test_S_spec (s : jsstring) :
  test_S s = true <-> exists c, In c s /\ is_whitespace c = false.
Proof.
  unfold test_S. rewrite existsb_exists.
  split; intros [c [Hin Hc]]; exists c; split; auto.
  - now apply negb_true_iff.
  - now apply negb_true_iff.
Qed.

Lemma test_S_whitespace (s : jsstring) :
  test_S s = false <-> WhitespaceOnly s.
Proof.
  unfold WhitespaceOnly. rewrite <- not_true_iff_false, test_S_spec. split.
  - intros H c Hin. destruct (is_whitespace c) eqn:E; [reflexivity|].
    exfalso. apply H. now exists c.
  - intros H [c [Hin Hc]]. rewrite (H c Hin) in Hc. discriminate.
Qed.

Lemma nonEmptyStr_spec (v : value) : nonEmptyStr v = true <-> NonEmptyString v.
Proof.
  unfold NonEmptyString. split.
  - destruct v; simpl; try discriminate. intros H. exists s. split; [reflexivity|].
    now apply test_S_spec.
  - intros [s [-> H]]. simpl. now apply test_S_spec.
Qed.

Lemma nonEmptyStr_false (v : value) :
  nonEmptyStr v = false <-> ~ NonEmptyString v.
Proof. rewrite <- nonEmptyStr_spec. symmetry. apply not_true_iff_false. Qed.

Section Filters.
Context {A : Type} (f : A -> bool) (P : A -> Prop).
Hypothesis f_spec : forall x, f x = true <-> P x.

Lemma filter_Kept (l : list A) : Kept P l (filter f l).
Proof.
  induction l as [|x l IH]; simpl; [constructor|].
  destruct (f x) eqn:E.
  - apply Kept_take; [now apply f_spec | exact IH].
  - apply Kept_drop; [|exact IH].
    intros HP. apply f_spec in HP. congruence.
Qed.

Lemma Kept_filter (l r : list A) : Kept P l r -> r = filter f l.
Proof.
  induction 1 as [|x l r HP _ IH|x l r HP _ IH]; simpl.
  - reflexivity.
  - apply f_spec in HP. rewrite HP, IH. reflexivity.
  - destruct (f x) eqn:E; [|exact IH].
    apply f_spec in E. contradiction.
Qed.
End Filters.

Lemma Kept_Forall {A} (P : A -> Prop) (l r : list A) :
  Kept P l r -> Forall P r.
Proof. induction 1; auto. Qed.

Lemma existsb_false_iff {A} (f : A -> bool) (l : list A) :
  existsb f l = false <-> forall x, In x l -> f x = false.
Proof.
  rewrite <- not_true_iff_false, existsb_exists. split.
  - intros H x Hin. destruct (f x) eqn:E; [|reflexivity].
    exfalso. apply H. now exists x.
  - intros H [x [Hin Hx]]. rewrite (H x Hin) in Hx. discriminate.
Qed.

Lemma default_pattern_nonempty : nonEmptyStr (VString (js "lang/*.json")) = true.
Proof. reflexivity. Qed.

(** ** The Pattern Normalizer *)

(** The three branches of [normalizePatterns]. *)
Lemma normalizePatterns_nonEmptyStr (v : value) :
  nonEmptyStr v = true -> normalizePatterns v = [v].
Proof. unfold normalizePatterns. now intros ->. Qed.

Lemma normalizePatterns_array (l : list value) :
  normalizePatterns (VArray l) =
  if existsb nonEmptyStr l then filter nonEmptyStr l
  else [VString (js "lang/*.json")].
Proof.
  unfold normalizePatterns. simpl. now destruct (existsb nonEmptyStr l).
Qed.

Lemma normalizePatterns_other (v : value) :
  nonEmptyStr v = false -> isArray v = false ->
  normalizePatterns v = [VString (js "lang/*.json")].
Proof. unfold normalizePatterns. now intros -> ->. Qed.

(** C2, as amended.  For every string [s] that has at least one
    character that is not white space, the Pattern Normalizer returns
    the single-element sequence [[s]]. *)
Theorem normalizePatterns_string (s : jsstring) :
  (exists c, In c s /\ is_whitespace c = false) ->
  normalizePatterns (VString s) = [VString s].
Proof.
  intros H. apply normalizePatterns_nonEmptyStr.
  simpl. now apply test_S_spec.
Qed.

Lemma normalizePatterns_string_witness :
  (exists c, In c (js " src/*.json") /\ is_whitespace c = false)
  /\ normalizePatterns (VString (js " src/*.json"))
     = [VString (js " src/*.json")].
Proof.
  assert (H : exists c, In c (js " src/*.json") /\ is_whitespace c = false).
  { exists 115%N. split; [simpl; auto | reflexivity]. }
  split; [exact H | exact (normalizePatterns_string (js " src/*.json") H)].
Defined.

(** C2, as first stated, fails: the string of two spaces is not empty,
    yet it is normalized to the default pattern, not to itself. *)
Lemma normalizePatterns_blank_string_counterexample :
  js "  " <> []
  /\ normalizePatterns (VString (js "  ")) = [VString (js "lang/*.json")]
  /\ normalizePatterns (VString (js "  ")) <> [VString (js "  ")].
Proof. split; [discriminate | split; [reflexivity | discriminate]]. Qed.

(** C4.  An empty or white-space-only string, a value that is neither
    an array nor a string ([null] and [undefined] among them), and an
    array none of whose elements is a non-empty string are all
    normalized to the default sequence [["lang/*.json"]]; the function
    is total, so no error is raised. *)
Theorem normalizePatterns_default (v : value) :
  (exists s, v = VString s /\ WhitespaceOnly s)
  \/ (is_string v = false /\ isArray v = false)
  \/ (exists l, v = VArray l /\ forall x, In x l -> ~ NonEmptyString x) ->
  normalizePatterns v = [VString (js "lang/*.json")].
Proof.
  intros [[s [-> Hs]] | [[Hstr Harr] | [l [-> Hl]]]].
  - apply normalizePatterns_other; [|reflexivity].
    simpl. now apply test_S_whitespace.
  - apply normalizePatterns_other; [|exact Harr].
    destruct v; try reflexivity. discriminate.
  - rewrite normalizePatterns_array.
    replace (existsb nonEmptyStr l) with false; [reflexivity|].
    symmetry. apply existsb_false_iff.
    intros x Hin. apply nonEmptyStr_false. now apply Hl.
Qed.

Lemma normalizePatterns_default_witness :
  normalizePatterns (VString (js "")) = [VString (js "lang/*.json")]
  /\ normalizePatterns (VString (js "  ")) = [VString (js "lang/*.json")]
  /\ normalizePatterns VNull = [VString (js "lang/*.json")]
  /\ normalizePatterns VUndefined = [VString (js "lang/*.json")]
  /\ normalizePatterns (VNumber 7) = [VString (js "lang/*.json")]
  /\ normalizePatterns (VArray [VString (js ""); VNumber 7; VString (js " ")])
     = [VString (js "lang/*.json")].
Proof.
  refine (conj _ (conj _ (conj _ (conj _ (conj _ _))))).
  - apply normalizePatterns_default. left. exists (js ""). split; [reflexivity|].
    intros c [].
  - apply normalizePatterns_default. left. exists (js "  "). split; [reflexivity|].
    intros c [<-|[<-|[]]]; reflexivity.
  - apply normalizePatterns_default. right. left. split; reflexivity.
  - apply normalizePatterns_default. right. left. split; reflexivity.
  - apply normalizePatterns_default. right. left. split; reflexivity.
  - apply normalizePatterns_default. right. right.
    exists [VString (js ""); VNumber 7; VString (js " ")]. split; [reflexivity|].
    intros x [<-|[<-|[<-|[]]]]; apply nonEmptyStr_false; reflexivity.
Defined.

(** C5.  An array with at least one non-empty string is normalized to
    exactly its non-empty string elements, in their original order; for
    instance [["", "a/*.json", "  ", "b/*.json"]] gives
    [["a/*.json", "b/*.json"]]. *)
Theorem normalizePatterns_array_keeps_nonempty :
  (forall l : list value,
      (exists x, In x l /\ NonEmptyString x) ->
      Kept NonEmptyString l (normalizePatterns (VArray l)))
  /\ normalizePatterns
       (VArray [VString (js ""); VString (js "a/*.json"); VString (js "  ");
                VString (js "b/*.json")])
     = [VString (js "a/*.json"); VString (js "b/*.json")].
Proof.
  split; [|reflexivity].
  intros l [x [Hin Hx]]. rewrite normalizePatterns_array.
  replace (existsb nonEmptyStr l) with true.
  - apply filter_Kept. exact nonEmptyStr_spec.
  - symmetry. apply existsb_exists. exists x. split; [exact Hin|].
    now apply nonEmptyStr_spec.
Qed.

Lemma normalizePatterns_array_keeps_nonempty_witness :
  let l := [VNull; VString (js "src/*.json"); VString (js " ")] in
  (exists x, In x l /\ NonEmptyString x)
  /\ Kept NonEmptyString l [VString (js "src/*.json")].
Proof.
  intros l.
  assert (H : exists x, In x l /\ NonEmptyString x).
  { exists (VString (js "src/*.json")). split; [simpl; auto|].
    apply nonEmptyStr_spec. reflexivity. }
  split; [exact H|].
  exact (proj1 normalizePatterns_array_keeps_nonempty l H).
Defined.

(** C6.  Whatever it is given, the Pattern Normalizer returns a sequence
    that is not empty and whose every element is a non-empty string; it
    is a total function, so it raises no error. *)
Theorem normalizePatterns_valid (v : value) :
  normalizePatterns v <> []
  /\ Forall NonEmptyString (normalizePatterns v).
Proof.
  assert (Hdef : NonEmptyString (VString (js "lang/*.json"))).
  { apply nonEmptyStr_spec. exact default_pattern_nonempty. }
  destruct (nonEmptyStr v) eqn:Hv.
  - rewrite (normalizePatterns_nonEmptyStr v Hv).
    split; [discriminate|]. constructor; [|constructor].
    now apply nonEmptyStr_spec.
  - destruct (isArray v) eqn:Ha.
    + destruct v; try discriminate. rewrite normalizePatterns_array.
      destruct (existsb nonEmptyStr elems) eqn:He.
      * split.
        -- apply existsb_exists in He. destruct He as [x [Hin Hx]].
           intros Hnil.
           assert (Hx' : In x (filter nonEmptyStr elems))
             by (apply filter_In; auto).
           rewrite Hnil in Hx'. exact Hx'.
        -- apply (Kept_Forall (l := elems)).
           apply filter_Kept. exact nonEmptyStr_spec.
      * split; [discriminate|]. constructor; [exact Hdef|constructor].
    + rewrite (normalizePatterns_other v Hv Ha).
      split; [discriminate|]. constructor; [exact Hdef|constructor].
Qed.

(** ** Strings *)

Lemma substr_without_last_two (bn : jsstring) :
  substr bn 0 (Z.of_nat (length bn) - 2) = without_last_two bn.
Proof.
  unfold substr, without_last_two. simpl.
  destruct (Z.min (Z.max (Z.of_nat (length bn) - 2) 0)
                  (Z.of_nat (length bn) - 0) <=? 0)%Z eqn:E.
  - apply Z.leb_le in E.
    replace (length bn - 2) with 0 by lia. reflexivity.
  - apply Z.leb_gt in E. f_equal. lia.
Qed.

Lemma array_map_total {A B} (f : A -> completion B) (g : A -> B)
      (l : list A) :
  (forall x, f x = Normal (g x)) -> array_map f l = Normal (map g l).
Proof.
  intros H. induction l as [|x l IH]; simpl; [reflexivity|].
  rewrite H, IH. reflexivity.
Qed.

(** ** The Directory Normalizer, the Destination Deriver, the Source
    Finder and the Converter *)

Section Properties.
Context {path : PathModule} {FS : Type} {platform : Platform FS}.

(** The two outcomes of [mkdirp.sync] under the guard, and the case the
    guard excludes. *)
Lemma normalizeDir_rejected (dir : value) (fs : FS) :
  nonEmptyStr dir = false -> normalizeDir dir fs = (Normal VNull, fs).
Proof. unfold normalizeDir. now intros ->. Qed.

Lemma normalizeDir_created (dir : value) (fs fs' : FS) :
  nonEmptyStr dir = true -> mkdirp_sync dir fs = (Normal tt, fs') ->
  normalizeDir dir fs = (Normal dir, fs').
Proof.
  unfold normalizeDir, try_catch, bind, ret. now intros -> ->.
Qed.

Lemma normalizeDir_failed (dir e : value) (fs fs' : FS) :
  nonEmptyStr dir = true -> mkdirp_sync dir fs = (Throw e, fs') ->
  normalizeDir dir fs = (Normal VNull, fs').
Proof.
  unfold normalizeDir, try_catch, bind, ret. now intros -> ->.
Qed.

Lemma normalizeDir_returns (dir : value) (fs : FS) :
  exists v fs', normalizeDir dir fs = (Normal v, fs')
                /\ (v = VNull \/ v = dir).
Proof.
  destruct (nonEmptyStr dir) eqn:Hd.
  - destruct (mkdirp_sync dir fs) as [[[]|e] fs'] eqn:Hm.
    + exists dir, fs'. split; [now apply normalizeDir_created | now right].
    + exists VNull, fs'. split; [eapply normalizeDir_failed; eassumption | now left].
  - exists VNull, fs. split; [now apply normalizeDir_rejected | now left].
Qed.

(** C7.  The Directory Normalizer returns [null] when its input is not
    a non-empty string and when creating the directory throws, in which
    case the error goes no further; when creation succeeds it returns
    the input unchanged.  In every case it returns, and throws
    nothing. *)
Theorem normalizeDir_spec (dir : value) (fs : FS) :
  (~ NonEmptyString dir -> normalizeDir dir fs = (Normal VNull, fs))
  /\ (forall e fs', NonEmptyString dir ->
                    mkdirp_sync dir fs = (Throw e, fs') ->
                    normalizeDir dir fs = (Normal VNull, fs'))
  /\ (forall fs', NonEmptyString dir ->
                  mkdirp_sync dir fs = (Normal tt, fs') ->
                  normalizeDir dir fs = (Normal dir, fs'))
  /\ (exists v fs', normalizeDir dir fs = (Normal v, fs')).
Proof.
  split; [|split; [|split]].
  - intros H. apply normalizeDir_rejected. now apply nonEmptyStr_false.
  - intros e fs' H Hm. apply nonEmptyStr_spec in H.
    eapply normalizeDir_failed; eassumption.
  - intros fs' H Hm. apply nonEmptyStr_spec in H.
    now apply normalizeDir_created.
  - destruct (normalizeDir_returns dir fs) as [v [fs' [H _]]].
    now exists v, fs'.
Qed.

(** The Destination Deriver on a source and an absent directory. *)
Lemma destination_absent (src : jsstring) (d : value) :
  to_boolean d = false -> destination src d = Normal (alongside src).
Proof.
  unfold destination, alongside. intros ->. simpl.
  now rewrite substr_without_last_two.
Qed.

(** The empty string is a string, but [||] reads it as absent. *)
Lemma destination_empty_dir (src : jsstring) :
  destination src (VString []) = Normal (alongside src).
Proof. now apply destination_absent. Qed.

Lemma destination_present (src s : jsstring) :
  s <> [] ->
  destination src (VString s)
  = Normal (join s (without_last_two (basename src))).
Proof.
  unfold destination. intros Hs.
  destruct s as [|c s]; [contradiction|]. simpl.
  now rewrite substr_without_last_two.
Qed.

(** A directory that is neither absent nor a string reaches
    [path.join], which rejects it. *)
Lemma destination_throws (src : jsstring) (d : value) :
  to_boolean d = true -> is_string d = false ->
  destination src d = Throw TypeError.
Proof.
  unfold destination. intros ->. destruct d; simpl; try reflexivity.
  discriminate.
Qed.

Lemma destination_reference (src : jsstring) (d : value) :
  DirectoryReference d ->
  destination src d
  = Normal (join (target_directory src d) (without_last_two (basename src))).
Proof.
  intros [-> | [-> | [s [-> Hs]]]].
  - now apply destination_absent.
  - now apply destination_absent.
  - now apply destination_present.
Qed.

Lemma json_only_Kept (found : list jsstring) :
  Kept (fun f => extname f = js ".json") found (json_only found).
Proof. unfold json_only. apply filter_Kept. intros f. apply jsstring_eqb_eq. Qed.

(** The two outcomes of [globby.sync], through [findSources]. *)
Lemma findSources_answer (patterns : list value) (fs : FS)
      (found : list jsstring) :
  globby_sync patterns fs = Normal found ->
  findSources patterns fs = (Normal (json_only found), fs).
Proof. unfold findSources, bind, read, ret. now intros ->. Qed.

Lemma findSources_throw (patterns : list value) (fs : FS) (e : value) :
  globby_sync patterns fs = Throw e ->
  findSources patterns fs = (Throw e, fs).
Proof. unfold findSources, bind, read. now intros ->. Qed.

(** C8.  When the glob resolver answers, the Source Finder's result is
    that answer filtered, in order, to the paths whose extension is
    [".json"], a string of five characters; every path of the result
    has that extension, and when nothing matches the result is the
    empty sequence, not an error. *)
Theorem findSources_spec (patterns : list value) (fs : FS)
        (found : list jsstring) :
  globby_sync patterns fs = Normal found ->
  exists r,
    findSources patterns fs = (Normal r, fs)
    /\ Kept (fun f => extname f = js ".json") found r
    /\ Forall (fun f => extname f = js ".json" /\ length (extname f) = 5) r
    /\ (found = [] -> r = []).
Proof.
  intros Hglob. exists (json_only found).
  split; [now apply findSources_answer|].
  split; [apply json_only_Kept | split].
  - assert (H := Kept_Forall (json_only_Kept found)).
    eapply Forall_impl; [|exact H].
    intros f Hf. split; [exact Hf | now rewrite Hf].
  - now intros ->.
Qed.

Lemma processSources_alongside (sources : list jsstring) (dir : value) :
  processSources sources dir = Normal (map alongside sources).
Proof.
  unfold processSources. apply array_map_total.
  intros src. now apply destination_absent.
Qed.

(** What [convert] returns when [globby.sync] answers, and the file
    system it leaves. *)
Lemma convert_answer (patterns dir : value) (fs : FS)
      (found : list jsstring) :
  globby_sync (normalizePatterns patterns) fs = Normal found ->
  convert patterns dir fs
  = (Normal {| srces := json_only found;
               dests := map alongside (json_only found) |},
     snd (normalizeDir dir fs)).
Proof.
  intros Hglob. unfold convert, bind at 1.
  rewrite (findSources_answer _ _ Hglob). unfold bind, lift, ret.
  destruct (normalizeDir_returns dir fs) as [v [fs' [-> _]]].
  now rewrite processSources_alongside.
Qed.

(** What [globby.sync] throws, [convert] throws, before anything else
    is run. *)
Lemma convert_throw (patterns dir : value) (fs : FS) (e : value) :
  globby_sync (normalizePatterns patterns) fs = Throw e ->
  convert patterns dir fs = (Throw e, fs).
Proof.
  intros Hglob. unfold convert, bind at 1.
  now rewrite (findSources_throw _ _ Hglob).
Qed.

Lemma destinations_derived (l : list jsstring) :
  Forall2 (fun src dest => destination src VUndefined = Normal dest)
          l (map alongside l).
Proof.
  induction l as [|src l IH]; simpl; constructor; [|exact IH].
  now apply destination_absent.
Qed.

(** C9.  Whenever the glob resolver answers, the converter returns, and
    what it returns holds the sources found and as many destinations,
    the i-th of which is the Destination Deriver's result on the i-th
    source.  The one invocation that returns no structure is the one in
    which the resolver throws: the converter then throws the same. *)
Theorem convert_sources_and_destinations (patterns dir : value) (fs : FS) :
  (forall found,
      globby_sync (normalizePatterns patterns) fs = Normal found ->
      exists r fs',
        convert patterns dir fs = (Normal r, fs')
        /\ findSources (normalizePatterns patterns) fs = (Normal (srces r), fs)
        /\ length (dests r) = length (srces r)
        /\ Forall2 (fun src dest => destination src VUndefined = Normal dest)
                   (srces r) (dests r))
  /\ (forall e,
        globby_sync (normalizePatterns patterns) fs = Throw e ->
        convert patterns dir fs = (Throw e, fs)).
Proof.
  split.
  - intros found Hglob. do 2 eexists.
    split; [apply convert_answer; exact Hglob|]. simpl.
    split; [apply findSources_answer; exact Hglob|].
    split; [apply length_map | apply destinations_derived].
  - intros e Hglob. now apply convert_throw.
Qed.

(** C10.  Two calls of the converter with the same patterns and the
    same outcome of the glob resolver have the same outcome, whatever
    their directory arguments; when the resolver answered, both return
    the same destinations, each in the containing directory of its
    source. *)
Theorem convert_destinations_ignore_dir
        (patterns dir1 dir2 : value) (fs1 fs2 : FS) :
  globby_sync (normalizePatterns patterns) fs1
  = globby_sync (normalizePatterns patterns) fs2 ->
  fst (convert patterns dir1 fs1) = fst (convert patterns dir2 fs2)
  /\ forall found,
      globby_sync (normalizePatterns patterns) fs1 = Normal found ->
      exists r1 r2 fs1' fs2',
        convert patterns dir1 fs1 = (Normal r1, fs1')
        /\ convert patterns dir2 fs2 = (Normal r2, fs2')
        /\ dests r1 = dests r2
        /\ dests r1
           = map (fun src => join (dirname src)
                                  (without_last_two (basename src)))
                 (srces r1).
Proof.
  intros Hglob. split.
  - destruct (globby_sync (normalizePatterns patterns) fs1)
      as [found|e] eqn:H1; symmetry in Hglob.
    + now rewrite (convert_answer _ dir1 _ H1), (convert_answer _ dir2 _ Hglob).
    + now rewrite (convert_throw _ dir1 _ H1), (convert_throw _ dir2 _ Hglob).
  - intros found H1. rewrite H1 in Hglob. symmetry in Hglob.
    do 4 eexists.
    split; [apply convert_answer; exact H1|].
    split; [apply convert_answer; exact Hglob|].
    split; reflexivity.
Qed.

End Properties.


Lemma normalizeDir_spec_witness :
  normalizeDir (VString (js "")) Demo.lang_fs = (Normal VNull, Demo.lang_fs)
  /\ normalizeDir (VString (js "/proc/out")) Demo.lang_fs
     = (Normal VNull, Demo.lang_fs)
  /\ normalizeDir (VString (js "out")) Demo.lang_fs
     = (Normal (VString (js "out")), Demo.lang_fs_out).
Proof.
  refine (conj _ (conj _ _)).
  - apply (proj1 (normalizeDir_spec (VString (js "")) Demo.lang_fs)).
    apply nonEmptyStr_false. reflexivity.
  - apply (proj1 (proj2 (normalizeDir_spec (VString (js "/proc/out"))
                                           Demo.lang_fs))
             (VObject "EACCES")).
    + apply nonEmptyStr_spec. reflexivity.
    + reflexivity.
  - apply (proj1 (proj2 (proj2 (normalizeDir_spec (VString (js "out"))
                                                  Demo.lang_fs)))).
    + apply nonEmptyStr_spec. reflexivity.
    + reflexivity.
Defined.

Lemma findSources_spec_witness :
  let found := [js "lang/en.json"; js "lang/fr.json"; js "lang/notes.txt"] in
  globby_sync [VString (js "lang/*")] Demo.lang_fs = Normal found
  /\ (exists r,
        findSources (path := posix) [VString (js "lang/*")] Demo.lang_fs
        = (Normal r, Demo.lang_fs)
        /\ Kept (fun f => extname f = js ".json") found r
        /\ Forall (fun f => extname f = js ".json"
                            /\ length (extname f) = 5) r
        /\ (found = [] -> r = []))
  /\ globby_sync [VString (js "lang/*.json")] Demo.empty_fs = Normal []
  /\ (exists r,
        findSources (path := posix) [VString (js "lang/*.json")]
                    Demo.empty_fs = (Normal r, Demo.empty_fs)
        /\ Kept (fun f => extname f = js ".json") [] r
        /\ Forall (fun f => extname f = js ".json"
                            /\ length (extname f) = 5) r
        /\ (@nil jsstring = [] -> r = [])).
Proof.
  intros found.
  refine (conj eq_refl (conj _ (conj eq_refl _))).
  - exact (findSources_spec (path := posix) [VString (js "lang/*")]
             Demo.lang_fs eq_refl).
  - exact (findSources_spec (path := posix) [VString (js "lang/*.json")]
             Demo.empty_fs eq_refl).
Defined.

Lemma convert_sources_and_destinations_witness :
  globby_sync (normalizePatterns (VString (js "lang/*.json"))) Demo.lang_fs
  = Normal [js "lang/en.json"; js "lang/fr.json"]
  /\ (exists r fs',
        convert (path := posix) (VString (js "lang/*.json"))
                (VString (js "out")) Demo.lang_fs = (Normal r, fs')
        /\ findSources (path := posix)
                       (normalizePatterns (VString (js "lang/*.json")))
                       Demo.lang_fs = (Normal (srces r), Demo.lang_fs)
        /\ length (dests r) = length (srces r)
        /\ Forall2 (fun src dest => destination src VUndefined = Normal dest)
                   (srces r) (dests r))
  /\ globby_sync (normalizePatterns (VString Demo.nul_pattern)) Demo.lang_fs
     = Throw (VObject "ERR_INVALID_ARG_VALUE")
  /\ convert (path := posix) (VString Demo.nul_pattern) (VString (js "out"))
             Demo.lang_fs
     = (Throw (VObject "ERR_INVALID_ARG_VALUE"), Demo.lang_fs).
Proof.
  refine (conj eq_refl (conj _ (conj eq_refl _))).
  - exact (proj1 (convert_sources_and_destinations (path := posix)
                    (VString (js "lang/*.json")) (VString (js "out"))
                    Demo.lang_fs) _ eq_refl).
  - exact (proj2 (convert_sources_and_destinations (path := posix)
                    (VString Demo.nul_pattern) (VString (js "out"))
                    Demo.lang_fs) _ eq_refl).
Defined.

Lemma convert_destinations_ignore_dir_witness :
  globby_sync (normalizePatterns (VString (js "lang/*.json"))) Demo.lang_fs
  = globby_sync (normalizePatterns (VString (js "lang/*.json")))
                Demo.lang_fs_out
  /\ globby_sync (normalizePatterns (VString (js "lang/*.json"))) Demo.lang_fs
     = Normal [js "lang/en.json"; js "lang/fr.json"]
  /\ fst (convert (path := posix) (VString (js "lang/*.json"))
                  (VString (js "out")) Demo.lang_fs)
     = fst (convert (path := posix) (VString (js "lang/*.json"))
                    VUndefined Demo.lang_fs_out)
  /\ exists r1 r2 fs1' fs2',
      convert (path := posix) (VString (js "lang/*.json"))
              (VString (js "out")) Demo.lang_fs = (Normal r1, fs1')
      /\ convert (path := posix) (VString (js "lang/*.json"))
                 VUndefined Demo.lang_fs_out = (Normal r2, fs2')
      /\ dests r1 = dests r2
      /\ dests r1
         = map (fun src => join (dirname src)
                                (without_last_two (basename src)))
               (srces r1).
Proof.
  assert (Hglob : globby_sync (normalizePatterns (VString (js "lang/*.json")))
                              Demo.lang_fs
                  = globby_sync (normalizePatterns (VString (js "lang/*.json")))
                                Demo.lang_fs_out) by reflexivity.
  assert (Hfound : globby_sync (normalizePatterns (VString (js "lang/*.json")))
                               Demo.lang_fs
                   = Normal [js "lang/en.json"; js "lang/fr.json"])
    by reflexivity.
  refine (conj Hglob (conj Hfound _)).
  destruct (convert_destinations_ignore_dir (path := posix)
              (VString (js "lang/*.json")) (VString (js "out")) VUndefined
              Demo.lang_fs Demo.lang_fs_out Hglob) as [Hsame Hdests].
  split; [exact Hsame|].
  exact (Hdests _ Hfound).
Defined.

(** ** The Destination Deriver *)

(** C3.  On a source path and a Directory Reference the Destination
    Deriver returns the join of the reference if present, else of the
    containing directory of the source, with the base name of the
    source less its final two characters, whatever that name ends in.
    With [path.posix], ["lang/en.json"] goes to ["lang/en.js"] when the
    directory is absent and to ["out/en.js"] when it is ["out"], and
    ["lang/notes.txt"] goes to ["lang/notes.t"]. *)
Theorem destination_spec :
  (forall (P : PathModule) (src : jsstring) (d : value),
      DirectoryReference d ->
      destination src d
      = Normal (join (target_directory src d)
                     (without_last_two (basename src))))
  /\ destination (path := posix) (js "lang/en.json") VNull
     = Normal (js "lang/en.js")
  /\ destination (path := posix) (js "lang/en.json") VUndefined
     = Normal (js "lang/en.js")
  /\ destination (path := posix) (js "lang/en.json") (VString (js "out"))
     = Normal (js "out/en.js")
  /\ destination (path := posix) (js "lang/notes.txt") VNull
     = Normal (js "lang/notes.t").
Proof.
  refine (conj _ (conj _ (conj _ (conj _ _)))); try reflexivity.
  intros P src d Hd. now apply destination_reference.
Qed.

Lemma destination_spec_witness :
  DirectoryReference (VString (js "build/i18n"))
  /\ destination (path := posix) (js "src/lang/pt-BR.json")
                 (VString (js "build/i18n"))
     = Normal (js "build/i18n/pt-BR.js").
Proof.
  assert (H : DirectoryReference (VString (js "build/i18n"))).
  { right. right. exists (js "build/i18n"). split; [reflexivity|discriminate]. }
  split; [exact H|].
  exact (proj1 destination_spec posix (js "src/lang/pt-BR.json")
               (VString (js "build/i18n")) H).
Defined.

(** ** The Converter on the small file system *)

(** The end-to-end examples of section 8. *)
Example convert_lang :
  fst (convert (path := posix) (VString (js "lang/*.json")) VUndefined
               Demo.lang_fs)
  = Normal {| srces := [js "lang/en.json"; js "lang/fr.json"];
              dests := [js "lang/en.js"; js "lang/fr.js"] |}.
Proof. reflexivity. Qed.

Example convert_no_match :
  fst (convert (path := posix) (VString (js "i18n/*.json")) VUndefined
               Demo.lang_fs)
  = Normal {| srces := []; dests := [] |}.
Proof. reflexivity. Qed.

(** C1.  The claim that a created directory receives the destinations
    fails on the code.  With [lang/en.json] and [lang/fr.json] on disk,
    [convert("lang/*.json", "out")] creates [out], and the Destination
    Deriver given ["out"] answers ["out/en.js"]; yet the destinations
    returned are ["lang/en.js"] and ["lang/fr.js"], next to their
    sources, since [processSources] calls [destination(src)] without
    its [dir]. *)
Theorem convert_out_dir_not_used :
  normalizeDir (VString (js "out")) Demo.lang_fs
  = (Normal (VString (js "out")), Demo.lang_fs_out)
  /\ destination (path := posix) (js "lang/en.json") (VString (js "out"))
     = Normal (js "out/en.js")
  /\ convert (path := posix) (VString (js "lang/*.json"))
             (VString (js "out")) Demo.lang_fs
     = (Normal {| srces := [js "lang/en.json"; js "lang/fr.json"];
                  dests := [js "lang/en.js"; js "lang/fr.js"] |},
        Demo.lang_fs_out).
Proof. refine (conj _ (conj _ _)); reflexivity. Qed.

(** * Further properties of the code *)

(** ** The Pattern Normalizer as an operation on arrays *)

Lemma filter_accepted {A} (f : A -> bool) (l : list A) :
  forallb f l = true -> filter f l = l.
Proof.
  induction l as [|x l IH]; simpl; [reflexivity|].
  intros H. apply andb_true_iff in H. destruct H as [Hx Hl].
  rewrite Hx, (IH Hl). reflexivity.
Qed.

Lemma forallb_filter {A} (f : A -> bool) (l : list A) :
  forallb f (filter f l) = true.
Proof.
  induction l as [|x l IH]; simpl; [reflexivity|].
  destruct (f x) eqn:E; simpl; [rewrite E|]; exact IH.
Qed.

Lemma existsb_accepted {A} (f : A -> bool) (l : list A) :
  l <> [] -> forallb f l = true -> existsb f l = true.
Proof.
  destruct l as [|x l]; [contradiction|]. simpl.
  intros _ H. apply andb_true_iff in H. destruct H as [-> _]. reflexivity.
Qed.

Lemma existsb_filter_nonempty {A} (f : A -> bool) (l : list A) :
  existsb f l = true -> filter f l <> [].
Proof.
  induction l as [|x l IH]; simpl; [discriminate|].
  destruct (f x); [discriminate | exact IH].
Qed.

(** What [normalizePatterns] returns passes its own test, element by
    element. *)
Lemma normalizePatterns_accepted (v : value) :
  normalizePatterns v <> []
  /\ forallb nonEmptyStr (normalizePatterns v) = true.
Proof.
  destruct (nonEmptyStr v) eqn:Hv.
  - rewrite (normalizePatterns_nonEmptyStr v Hv). simpl. rewrite Hv.
    split; [discriminate | reflexivity].
  - destruct (isArray v) eqn:Ha.
    + destruct v; try discriminate. rewrite normalizePatterns_array.
      destruct (existsb nonEmptyStr elems) eqn:He.
      * split; [now apply existsb_filter_nonempty | apply forallb_filter].
      * split; [discriminate | reflexivity].
    + rewrite (normalizePatterns_other v Hv Ha).
      split; [discriminate | reflexivity].
Qed.

(** X1.  Normalizing is idempotent: the array a first call returned is
    returned unchanged by a second call. *)
Theorem normalizePatterns_idempotent (v : value) :
  normalizePatterns (VArray (normalizePatterns v)) = normalizePatterns v.
Proof.
  destruct (normalizePatterns_accepted v) as [Hne Hall].
  rewrite normalizePatterns_array.
  rewrite (existsb_accepted _ Hne Hall).
  now apply filter_accepted.
Qed.

(** X2.  A value that is not an array is normalized like the array
    holding just that value: a single pattern may be given bare or in
    an array. *)
Theorem normalizePatterns_singleton (v : value) :
  isArray v = false ->
  normalizePatterns (VArray [v]) = normalizePatterns v.
Proof.
  intros Ha. rewrite normalizePatterns_array. simpl.
  destruct (nonEmptyStr v) eqn:Hv; simpl.
  - now rewrite (normalizePatterns_nonEmptyStr v Hv).
  - now rewrite (normalizePatterns_other v Hv Ha).
Qed.

Lemma normalizePatterns_singleton_witness :
  isArray (VString (js "src/*.json")) = false
  /\ isArray VNull = false
  /\ normalizePatterns (VArray [VString (js "src/*.json")])
     = normalizePatterns (VString (js "src/*.json"))
  /\ normalizePatterns (VArray [VNull]) = normalizePatterns VNull.
Proof.
  refine (conj eq_refl (conj eq_refl (conj _ _))).
  - exact (normalizePatterns_singleton (VString (js "src/*.json")) eq_refl).
  - exact (normalizePatterns_singleton VNull eq_refl).
Defined.

(** X3.  An element that is not a non-empty string has no effect: the
    array normalizes as it does with that element taken out, wherever
    the element stands. *)
Theorem normalizePatterns_skips_rejected (l1 l2 : list value) (x : value) :
  ~ NonEmptyString x ->
  normalizePatterns (VArray (l1 ++ x :: l2))
  = normalizePatterns (VArray (l1 ++ l2)).
Proof.
  intros Hx. apply nonEmptyStr_false in Hx.
  rewrite !normalizePatterns_array, !existsb_app, !filter_app. simpl.
  rewrite Hx. reflexivity.
Qed.

Lemma normalizePatterns_skips_rejected_witness :
  ~ NonEmptyString (VArray [VString (js "b/*.json")])
  /\ normalizePatterns
       (VArray [VString (js "a/*.json"); VArray [VString (js "b/*.json")];
                VString (js "c/*.json")])
     = normalizePatterns
         (VArray [VString (js "a/*.json"); VString (js "c/*.json")]).
Proof.
  assert (H : ~ NonEmptyString (VArray [VString (js "b/*.json")])).
  { apply nonEmptyStr_false. reflexivity. }
  split; [exact H|].
  exact (normalizePatterns_skips_rejected [VString (js "a/*.json")]
           [VString (js "c/*.json")] H).
Defined.

(** X4.  The normalization of two arrays that each hold a non-empty
    string, put end to end, is their normalizations put end to end:
    nothing is reordered and a pattern given twice is kept twice. *)
Theorem normalizePatterns_app (l1 l2 : list value) :
  (exists x, In x l1 /\ NonEmptyString x) ->
  (exists x, In x l2 /\ NonEmptyString x) ->
  normalizePatterns (VArray (l1 ++ l2))
  = normalizePatterns (VArray l1) ++ normalizePatterns (VArray l2).
Proof.
  intros [x1 [Hin1 Hx1]] [x2 [Hin2 Hx2]].
  assert (H1 : existsb nonEmptyStr l1 = true).
  { apply existsb_exists. exists x1. split; [exact Hin1|].
    now apply nonEmptyStr_spec. }
  assert (H2 : existsb nonEmptyStr l2 = true).
  { apply existsb_exists. exists x2. split; [exact Hin2|].
    now apply nonEmptyStr_spec. }
  rewrite !normalizePatterns_array, existsb_app, filter_app, H1, H2.
  reflexivity.
Qed.

Lemma normalizePatterns_app_witness :
  let l1 := [VString (js "a/*.json"); VString (js "")] in
  let l2 := [VNull; VString (js "a/*.json")] in
  (exists x, In x l1 /\ NonEmptyString x)
  /\ (exists x, In x l2 /\ NonEmptyString x)
  /\ normalizePatterns (VArray (l1 ++ l2))
     = [VString (js "a/*.json"); VString (js "a/*.json")].
Proof.
  intros l1 l2.
  assert (Ha : NonEmptyString (VString (js "a/*.json"))).
  { apply nonEmptyStr_spec. reflexivity. }
  assert (H1 : exists x, In x l1 /\ NonEmptyString x).
  { exists (VString (js "a/*.json")). split; [simpl; auto | exact Ha]. }
  assert (H2 : exists x, In x l2 /\ NonEmptyString x).
  { exists (VString (js "a/*.json")). split; [simpl; auto | exact Ha]. }
  split; [exact H1 | split; [exact H2|]].
  exact (@normalizePatterns_app l1 l2 H1 H2).
Defined.

(** ** The extension and the base name in [path.posix] *)

(** Two downward loops run side by side. *)
Lemma for_down_rel {S1 S2 : Type} (R : nat -> S1 -> S2 -> Prop)
      (Q : S1 -> S2 -> Prop)
      (body1 : nat -> S1 -> Posix.step S1)
      (body2 : nat -> S2 -> Posix.step S2) :
  (forall i s1 s2, R (S i) s1 s2 ->
     match body1 i s1, body2 i s2 with
     | Posix.Continue a, Posix.Continue b => R i a b
     | Posix.Break a, Posix.Break b => Q a b
     | _, _ => False
     end) ->
  (forall s1 s2, R 0 s1 s2 -> Q s1 s2) ->
  forall n s1 s2, R n s1 s2 ->
    Q (Posix.for_down 0 body1 n s1) (Posix.for_down 0 body2 n s2).
Proof.
  intros Hstep Hend. induction n as [|i IH]; intros s1 s2 HR; simpl.
  - now apply Hend.
  - specialize (Hstep i s1 s2 HR).
    destruct (body1 i s1), (body2 i s2); try contradiction.
    + now apply IH.
    + exact Hstep.
Qed.

Lemma slice_split (p : jsstring) (a b c : nat) :
  a <= b -> b <= c ->
  Posix.slice p a c = Posix.slice p a b ++ Posix.slice p b c.
Proof.
  unfold Posix.slice. intros Hab Hbc.
  replace (c - a) with ((b - a) + (c - b)) by lia.
  replace (skipn b p) with (skipn (b - a) (skipn a p))
    by (rewrite skipn_skipn; f_equal; lia).
  generalize (skipn a p) as l. generalize (b - a) as n.
  induction n as [|n IH]; intros l; simpl; [reflexivity|].
  destruct l as [|x l]; simpl.
  - now rewrite firstn_nil.
  - now rewrite IH.
Qed.

(** In [path.posix] the extension of a path is the end of its base
    name. *)
Lemma posix_extname_suffix (p : jsstring) :
  exists stem, Posix.basename p = stem ++ Posix.extname p.
Proof.
  unfold Posix.basename, Posix.extname.
  match goal with
  | |- context [Posix.for_down 0 ?b (length p)
                  {| Posix.b_start := 0; Posix.b_end := None;
                     Posix.b_matchedSlash := true |}] => set (B1 := b)
  end.
  match goal with
  | |- context [Posix.for_down 0 ?b (length p)
                  {| Posix.e_startDot := None; Posix.e_startPart := 0;
                     Posix.e_end := None; Posix.e_matchedSlash := true;
                     Posix.e_preDotState := 0 |}] => set (B2 := b)
  end.
  set (R := fun (n : nat) sb se =>
              Posix.b_end sb = Posix.e_end se
              /\ Posix.b_matchedSlash sb = Posix.e_matchedSlash se
              /\ Posix.b_start sb = 0 /\ Posix.e_startPart se = 0
              /\ (forall e, Posix.e_end se = Some e -> n <= e)
              /\ (forall sd, Posix.e_startDot se = Some sd ->
                    exists e, Posix.e_end se = Some e /\ n <= sd /\ sd < e)).
  set (Q := fun sb se =>
              Posix.b_end sb = Posix.e_end se
              /\ Posix.b_start sb = Posix.e_startPart se
              /\ (forall sd, Posix.e_startDot se = Some sd ->
                    exists e, Posix.e_end se = Some e
                              /\ Posix.e_startPart se <= sd /\ sd < e)).
  assert (HQ : Q (Posix.for_down 0 B1 (length p)
                    {| Posix.b_start := 0; Posix.b_end := None;
                       Posix.b_matchedSlash := true |})
                 (Posix.for_down 0 B2 (length p)
                    {| Posix.e_startDot := None; Posix.e_startPart := 0;
                       Posix.e_end := None; Posix.e_matchedSlash := true;
                       Posix.e_preDotState := 0 |})).
  { apply (for_down_rel R).
    - intros i [bs be bm] [ed ep ee em epd] (He & Hm & Hs & Hp & Hn & Hd).
      simpl in *. subst. unfold B1, B2. simpl.
      destruct (Posix.charCodeAt_is p i Posix.SLASH).
      + destruct em; simpl.
        * unfold R. simpl. repeat split; auto.
          -- intros e E. specialize (Hn e E). lia.
          -- intros sd E. destruct (Hd sd E) as [e [E1 [E2 E3]]].
             exists e. repeat split; auto. lia.
        * unfold Q. simpl. repeat split; auto.
          intros sd E. destruct (Hd sd E) as [e [E1 [E2 E3]]].
          exists e. repeat split; auto. lia.
      + destruct ee as [e0|], ed as [sd0|],
          (Posix.charCodeAt_is p i Posix.DOT);
          unfold R; simpl; repeat split; auto;
          try (intros e E; inversion E; subst;
               try specialize (Hn _ eq_refl); lia);
          try (intros sd E; inversion E; subst;
               try (destruct (Hd _ eq_refl) as [e' [E1 [E2 E3]]];
                    inversion E1; subst);
               try specialize (Hn _ eq_refl);
               eexists; repeat split; eauto; lia).
    - intros [bs be bm] [ed ep ee em epd] (He & Hm & Hs & Hp & Hn & Hd).
      simpl in *. subst. unfold Q. simpl. repeat split; auto.
    - unfold R. simpl. repeat split; auto; intros x E; discriminate. }
  destruct (Posix.for_down 0 B1 _ _) as [bs be bm].
  destruct (Posix.for_down 0 B2 _ _) as [ed ep ee em epd].
  destruct HQ as (He & Hs & Hd). simpl in *. subst.
  destruct ed as [sd|]; [|eexists; symmetry; apply app_nil_r].
  destruct (Hd sd eq_refl) as [e [-> [H1 H2]]].
  match goal with
  | |- context [if ?c then _ else _] => destruct c
  end.
  - eexists; symmetry; apply app_nil_r.
  - exists (Posix.slice p ep sd). apply slice_split; lia.
Qed.

Lemma without_last_two_json (stem : jsstring) :
  without_last_two (stem ++ js ".json") = stem ++ js ".js".
Proof.
  unfold without_last_two. rewrite length_app.
  change (length (js ".json")) with 5. rewrite firstn_app.
  replace (length stem + 5 - 2 - length stem) with 3 by lia.
  rewrite firstn_all2 by lia. reflexivity.
Qed.

(** ** The Converter and its parts, composed *)

Section Composition.
Context {path : PathModule} {FS : Type} {platform : Platform FS}.

(** X5.  When the glob resolver throws, the converter stops there and
    the file system is left as it was.  When it answers, the only
    change the converter makes to the file system is the one
    [mkdirp.sync(dir)] makes, thrown error or not; with a [dir] that is
    not a non-empty string the file system is left as it was. *)
Theorem convert_file_system (patterns dir : value) (fs : FS) :
  (forall e,
      globby_sync (normalizePatterns patterns) fs = Throw e ->
      snd (convert patterns dir fs) = fs)
  /\ (forall found,
        globby_sync (normalizePatterns patterns) fs = Normal found ->
        (~ NonEmptyString dir -> snd (convert patterns dir fs) = fs)
        /\ (NonEmptyString dir ->
            snd (convert patterns dir fs) = snd (mkdirp_sync dir fs))).
Proof.
  split.
  - intros e Hglob. now rewrite (convert_throw patterns dir fs Hglob).
  - intros found Hglob. rewrite (convert_answer patterns dir fs Hglob). simpl.
    split; intros H.
    + apply nonEmptyStr_false in H.
      now rewrite (normalizeDir_rejected dir fs H).
    + apply nonEmptyStr_spec in H.
      destruct (mkdirp_sync dir fs) as [[[]|e] fs'] eqn:Hm; simpl.
      * replace (normalizeDir dir fs) with (Normal dir, fs'); [reflexivity|].
        symmetry. now apply normalizeDir_created.
      * replace (normalizeDir dir fs) with (Normal VNull, fs'); [reflexivity|].
        symmetry. eapply normalizeDir_failed; eassumption.
Qed.

(** X6.  The Destination Deriver throws exactly when its [dir] is
    truthy and not a string, and what it throws is the [TypeError] of
    [path.join]; on [undefined], [null], [false], [0], the empty string
    and every other string it returns. *)
Theorem destination_throws_iff (src : jsstring) (d : value) :
  ((exists e, destination src d = Throw e)
   <-> to_boolean d = true /\ is_string d = false)
  /\ (forall e, destination src d = Throw e -> e = TypeError).
Proof.
  destruct (to_boolean d) eqn:Ht.
  - destruct (is_string d) eqn:Hs.
    + destruct d; try discriminate.
      unfold destination. rewrite Ht. simpl.
      split; [split|]; [intros [e He] | intros [_ He] | intros e He];
        discriminate.
    + rewrite (destination_throws src d Ht Hs).
      split; [split|]; [auto | intros _; now exists TypeError |].
      intros e He. now inversion He.
  - rewrite (destination_absent src d Ht).
    split; [split|]; [intros [e He] | intros [He _] | intros e He];
      discriminate.
Qed.

(** X7.  A base name of at most two characters leaves nothing after the
    truncation: the destination is the join of the target directory
    with the empty name, and nothing is thrown. *)
Theorem destination_short_name (src : jsstring) (d : value) :
  length (basename src) <= 2 ->
  DirectoryReference d ->
  destination src d = Normal (join (target_directory src d) []).
Proof.
  intros Hlen Hd. rewrite (destination_reference src Hd).
  unfold without_last_two.
  replace (length (basename src) - 2) with 0 by lia. reflexivity.
Qed.

(** X8.  When the extension of a path is the end of its base name, as
    it is in Node's [path], and the glob resolver answers, the
    converter turns [.json] into [.js]: each source has a base name
    [stem ++ ".json"] and its destination is [stem ++ ".js"] in the
    directory of the source. *)
Theorem convert_json_to_js (patterns dir : value) (fs : FS)
        (found : list jsstring) :
  (forall p, exists stem, basename p = stem ++ extname p) ->
  globby_sync (normalizePatterns patterns) fs = Normal found ->
  exists r fs',
    convert patterns dir fs = (Normal r, fs')
    /\ Forall2 (fun src dest =>
                  exists stem,
                    basename src = stem ++ js ".json"
                    /\ dest = join (dirname src) (stem ++ js ".js"))
               (srces r) (dests r).
Proof.
  intros Hext Hglob. do 2 eexists.
  split; [apply convert_answer; exact Hglob|]. simpl.
  assert (H := Kept_Forall (json_only_Kept found)).
  induction H as [|src l Hsrc _ IH]; simpl; constructor; [|exact IH].
  destruct (Hext src) as [stem Hstem]. exists stem.
  rewrite Hsrc in Hstem. split; [exact Hstem|].
  unfold alongside. now rewrite Hstem, without_last_two_json.
Qed.

(** X9.  A patterns argument that is neither a non-empty string nor an
    array holding one makes the converter do exactly what it does on
    ["lang/*.json"]: same result, same file system. *)
Theorem convert_default_patterns (patterns dir : value) (fs : FS) :
  (~ NonEmptyString patterns /\ isArray patterns = false)
  \/ (exists l, patterns = VArray l
                /\ forall x, In x l -> ~ NonEmptyString x) ->
  convert patterns dir fs = convert (VString (js "lang/*.json")) dir fs.
Proof.
  intros H.
  assert (E : normalizePatterns patterns
              = normalizePatterns (VString (js "lang/*.json"))).
  { rewrite (normalizePatterns_nonEmptyStr _ default_pattern_nonempty).
    destruct H as [[Hp Ha] | [l [-> Hl]]].
    - apply nonEmptyStr_false in Hp.
      now apply normalizePatterns_other.
    - rewrite normalizePatterns_array.
      replace (existsb nonEmptyStr l) with false; [reflexivity|].
      symmetry. apply existsb_false_iff.
      intros x Hin. apply nonEmptyStr_false. now apply Hl. }
  unfold convert. rewrite E. reflexivity.
Qed.

(** X10.  What the Directory Normalizer returns is always a Directory
    Reference, [null] or a non-empty string, so the Destination Deriver
    never throws on it. *)
Theorem normalizeDir_reference (dir : value) (fs : FS) :
  exists v fs',
    normalizeDir dir fs = (Normal v, fs')
    /\ (v = VNull \/ NonEmptyString v)
    /\ forall src,
        destination src v
        = Normal (join (target_directory src v)
                       (without_last_two (basename src))).
Proof.
  assert (Href : forall v, v = VNull \/ NonEmptyString v ->
                           DirectoryReference v).
  { intros v [-> | [s [-> [c [Hin _]]]]].
    - right. now left.
    - right. right. exists s. split; [reflexivity|].
      intros ->. exact Hin. }
  assert (Hres : exists v fs', normalizeDir dir fs = (Normal v, fs')
                               /\ (v = VNull \/ NonEmptyString v)).
  { destruct (nonEmptyStr dir) eqn:Hd.
    - destruct (normalizeDir_returns dir fs) as [v [fs' [E Hv]]].
      exists v, fs'. split; [exact E|].
      destruct Hv as [-> | ->]; [now left | right].
      now apply nonEmptyStr_spec.
    - exists VNull, fs. split; [now apply normalizeDir_rejected | now left]. }
  destruct Hres as [v [fs' [E Hv]]]. exists v, fs'.
  split; [exact E | split; [exact Hv|]].
  intros src. apply destination_reference. now apply Href.
Qed.

End Composition.

(** X11.  The converter hands [globby.sync] nothing but a list, not
    empty, of non-empty strings, and [mkdirp.sync] nothing but a
    non-empty string: two platforms that agree on such arguments cannot
    be told apart by [convert]. *)
Theorem convert_valid_arguments_only
        (path : PathModule) (FS : Type) (p1 p2 : Platform FS)
        (patterns dir : value) (fs : FS) :
  (forall pats s, pats <> [] -> Forall NonEmptyString pats ->
                  @globby_sync FS p1 pats s = @globby_sync FS p2 pats s) ->
  (forall d s, NonEmptyString d ->
               @mkdirp_sync FS p1 d s = @mkdirp_sync FS p2 d s) ->
  @convert path FS p1 patterns dir fs = @convert path FS p2 patterns dir fs.
Proof.
  intros Hglob Hmk.
  destruct (normalizePatterns_accepted patterns) as [Hne Hall].
  assert (Hsame : @globby_sync FS p1 (normalizePatterns patterns) fs
                  = @globby_sync FS p2 (normalizePatterns patterns) fs).
  { apply Hglob; [exact Hne|].
    apply Forall_forall. intros x Hin. apply nonEmptyStr_spec.
    now apply (proj1 (forallb_forall _ _) Hall). }
  assert (Hdir : @normalizeDir FS p1 dir fs = @normalizeDir FS p2 dir fs).
  { unfold normalizeDir, try_catch, bind. destruct (nonEmptyStr dir) eqn:Hd.
    - rewrite Hmk; [reflexivity|]. now apply nonEmptyStr_spec.
    - reflexivity. }
  destruct (@globby_sync FS p2 (normalizePatterns patterns) fs)
    as [found|e] eqn:H2.
  - rewrite (@convert_answer path FS p1 patterns dir fs found Hsame).
    rewrite (@convert_answer path FS p2 patterns dir fs found H2).
    now rewrite Hdir.
  - rewrite (@convert_throw path FS p1 patterns dir fs e Hsame).
    now rewrite (@convert_throw path FS p2 patterns dir fs e H2).
Qed.

(** X12.  When the glob resolver answers and none of the paths it
    answers has the extension [".json"], and so when it answers none at
    all, the converter returns two empty sequences and throws
    nothing. *)
Theorem convert_no_sources {path : PathModule} {FS : Type}
        {platform : Platform FS} (patterns dir : value) (fs : FS)
        (found : list jsstring) :
  globby_sync (normalizePatterns patterns) fs = Normal found ->
  Forall (fun f => extname f <> js ".json") found ->
  fst (convert patterns dir fs) = Normal {| srces := []; dests := [] |}.
Proof.
  intros Hglob H. rewrite (convert_answer patterns dir fs Hglob). simpl.
  clear Hglob.
  assert (E : json_only found = []).
  { unfold json_only.
    induction H as [|f l Hf _ IH]; simpl; [reflexivity|].
    destruct (jsstring_eqb (extname f) (js ".json")) eqn:Ef; [|exact IH].
    apply jsstring_eqb_eq in Ef. contradiction. }
  rewrite E. reflexivity.
Qed.

(** ** The properties above on the small file system *)

Lemma convert_file_system_witness :
  snd (convert (path := posix) (VString Demo.nul_pattern)
               (VString (js "out")) Demo.lang_fs) = Demo.lang_fs
  /\ snd (convert (path := posix) (VString (js "lang/*.json")) VNull
                  Demo.lang_fs) = Demo.lang_fs
  /\ snd (convert (path := posix) (VString (js "lang/*.json"))
                  (VString (js "out")) Demo.lang_fs) = Demo.lang_fs_out
  /\ snd (convert (path := posix) (VString (js "lang/*.json"))
                  (VString (js "/proc/out")) Demo.lang_fs) = Demo.lang_fs.
Proof.
  assert (H0 : ~ NonEmptyString VNull)
    by (apply nonEmptyStr_false; reflexivity).
  assert (H1 : NonEmptyString (VString (js "out")))
    by (apply nonEmptyStr_spec; reflexivity).
  assert (H2 : NonEmptyString (VString (js "/proc/out")))
    by (apply nonEmptyStr_spec; reflexivity).
  assert (Hthrow : globby_sync (normalizePatterns (VString Demo.nul_pattern))
                               Demo.lang_fs
                   = Throw (VObject "ERR_INVALID_ARG_VALUE")) by reflexivity.
  assert (Hfound : globby_sync (normalizePatterns (VString (js "lang/*.json")))
                               Demo.lang_fs
                   = Normal [js "lang/en.json"; js "lang/fr.json"])
    by reflexivity.
  refine (conj _ (conj _ (conj _ _))).
  - exact (proj1 (convert_file_system (path := posix)
                    (VString Demo.nul_pattern) (VString (js "out"))
                    Demo.lang_fs) _ Hthrow).
  - exact (proj1 (proj2 (convert_file_system (path := posix)
                           (VString (js "lang/*.json")) VNull Demo.lang_fs)
                        _ Hfound) H0).
  - rewrite (proj2 (proj2 (convert_file_system (path := posix)
                             (VString (js "lang/*.json"))
                             (VString (js "out")) Demo.lang_fs)
                          _ Hfound) H1).
    reflexivity.
  - rewrite (proj2 (proj2 (convert_file_system (path := posix)
                             (VString (js "lang/*.json"))
                             (VString (js "/proc/out")) Demo.lang_fs)
                          _ Hfound) H2).
    reflexivity.
Defined.

Lemma destination_throws_iff_witness :
  to_boolean (VNumber 7) = true /\ is_string (VNumber 7) = false
  /\ exists e,
      destination (path := posix) (js "lang/en.json") (VNumber 7) = Throw e.
Proof.
  refine (conj eq_refl (conj eq_refl _)).
  apply (proj2 (proj1 (destination_throws_iff (path := posix)
                         (js "lang/en.json") (VNumber 7)))).
  split; reflexivity.
Defined.

Lemma destination_short_name_witness :
  length (basename (js "lang/a")) <= 2
  /\ DirectoryReference VNull
  /\ destination (path := posix) (js "lang/a") VNull = Normal (js "lang").
Proof.
  assert (H1 : length (basename (js "lang/a")) <= 2) by (simpl; lia).
  assert (H2 : DirectoryReference VNull) by (right; left; reflexivity).
  refine (conj H1 (conj H2 _)).
  exact (destination_short_name (path := posix) (js "lang/a") H1 H2).
Defined.

Lemma convert_json_to_js_witness :
  (forall p, exists stem, basename p = stem ++ extname p)
  /\ globby_sync (normalizePatterns (VString (js "lang/*"))) Demo.lang_fs
     = Normal [js "lang/en.json"; js "lang/fr.json"; js "lang/notes.txt"]
  /\ exists r fs',
      convert (path := posix) (VString (js "lang/*")) VUndefined
              Demo.lang_fs = (Normal r, fs')
      /\ Forall2 (fun src dest =>
                    exists stem,
                      basename src = stem ++ js ".json"
                      /\ dest = join (dirname src) (stem ++ js ".js"))
                 (srces r) (dests r).
Proof.
  assert (Hfound : globby_sync (normalizePatterns (VString (js "lang/*")))
                               Demo.lang_fs
                   = Normal [js "lang/en.json"; js "lang/fr.json";
                             js "lang/notes.txt"]) by reflexivity.
  refine (conj posix_extname_suffix (conj Hfound _)).
  exact (convert_json_to_js (path := posix) (VString (js "lang/*"))
           VUndefined Demo.lang_fs posix_extname_suffix Hfound).
Defined.

Lemma convert_default_patterns_witness :
  convert (path := posix) VUndefined (VString (js "out")) Demo.lang_fs
  = convert (path := posix) (VString (js "lang/*.json"))
            (VString (js "out")) Demo.lang_fs
  /\ convert (path := posix) (VArray [VString (js " "); VNumber 7]) VNull
             Demo.lang_fs
     = convert (path := posix) (VString (js "lang/*.json")) VNull
               Demo.lang_fs.
Proof.
  split.
  - apply convert_default_patterns. left.
    split; [apply nonEmptyStr_false|]; reflexivity.
  - apply convert_default_patterns. right.
    exists [VString (js " "); VNumber 7]. split; [reflexivity|].
    intros x [<-|[<-|[]]]; apply nonEmptyStr_false; reflexivity.
Defined.

Lemma demo_strict_globby (pats : list value) (s : Demo.fs) :
  pats <> [] -> Forall NonEmptyString pats ->
  Demo.globby_sync pats s = Demo.globby_strict pats s.
Proof.
  intros Hne Hall. unfold Demo.globby_strict.
  destruct pats as [|x pats]; [contradiction|].
  replace (forallb nonEmptyStr (x :: pats)) with true; [reflexivity|].
  symmetry. apply forallb_forall. intros y Hy. apply nonEmptyStr_spec.
  now apply (proj1 (Forall_forall _ _) Hall).
Qed.

Lemma demo_strict_mkdirp (d : value) (s : Demo.fs) :
  NonEmptyString d -> Demo.mkdirp_sync d s = Demo.mkdirp_strict d s.
Proof.
  intros H. apply nonEmptyStr_spec in H.
  unfold Demo.mkdirp_strict. now rewrite H.
Qed.

Lemma convert_valid_arguments_only_witness :
  @globby_sync _ demo [] Demo.lang_fs <> @globby_sync _ demo_strict [] Demo.lang_fs
  /\ @mkdirp_sync _ demo VNull Demo.lang_fs
     <> @mkdirp_sync _ demo_strict VNull Demo.lang_fs
  /\ @convert posix _ demo VNull (VString (js "out")) Demo.lang_fs
     = @convert posix _ demo_strict VNull (VString (js "out")) Demo.lang_fs.
Proof.
  refine (conj _ (conj _ _)); [discriminate | discriminate |].
  apply convert_valid_arguments_only.
  - exact demo_strict_globby.
  - exact demo_strict_mkdirp.
Defined.

Lemma convert_no_sources_witness :
  globby_sync (normalizePatterns (VString (js "lang/*.txt"))) Demo.lang_fs
  = Normal [js "lang/notes.txt"]
  /\ Forall (fun f => extname f <> js ".json") [js "lang/notes.txt"]
  /\ fst (convert (path := posix) (VString (js "lang/*.txt"))
                  (VString (js "out")) Demo.lang_fs)
     = Normal {| srces := []; dests := [] |}.
Proof.
  assert (Hfound : globby_sync (normalizePatterns (VString (js "lang/*.txt")))
                               Demo.lang_fs
                   = Normal [js "lang/notes.txt"]) by reflexivity.
  assert (H : Forall (fun f => extname f <> js ".json")
                     [js "lang/notes.txt"]).
  { constructor; [|constructor].
    intros E. vm_compute in E. discriminate E. }
  refine (conj Hfound (conj H _)).
  exact (convert_no_sources (path := posix) (VString (js "lang/*.txt"))
           (VString (js "out")) Demo.lang_fs Hfound H).
Defined.

(** X13.  The Pattern Normalizer makes up no pattern but the default
    and alters none: each pattern it returns is the argument itself, an
    element of the argument array, or ["lang/*.json"]; a pattern with
    white space around it is returned with it. *)
Theorem normalizePatterns_origin (v x : value) :
  In x (normalizePatterns v) ->
  x = v \/ In x (elements v) \/ x = VString (js "lang/*.json").
Proof.
  destruct (nonEmptyStr v) eqn:Hv.
  - rewrite (normalizePatterns_nonEmptyStr v Hv).
    intros [<- | []]. now left.
  - destruct (isArray v) eqn:Ha.
    + destruct v; try discriminate. rewrite normalizePatterns_array. simpl.
      destruct (existsb nonEmptyStr elems).
      * intros Hin. apply filter_In in Hin. right. left. exact (proj1 Hin).
      * intros [<- | []]. right. now right.
    + rewrite (normalizePatterns_other v Hv Ha).
      intros [<- | []]. right. now right.
Qed.

Lemma normalizePatterns_origin_witness :
  In (VString (js " a/*.json ")) (normalizePatterns (VString (js " a/*.json ")))
  /\ (VString (js " a/*.json ") = VString (js " a/*.json ")
      \/ In (VString (js " a/*.json ")) (elements (VString (js " a/*.json ")))
      \/ VString (js " a/*.json ") = VString (js "lang/*.json")).
Proof.
  assert (H : In (VString (js " a/*.json "))
                 (normalizePatterns (VString (js " a/*.json "))))
    by (left; reflexivity).
  split; [exact H|].
  exact (normalizePatterns_origin (VString (js " a/*.json "))
           (VString (js " a/*.json ")) H).
Defined.
